(** * backend/main.py: the SQL gateway, embedded and specified

    The service has three POST operations ([test_connection], [execute_sql],
    [download_file]) over one request record.  Everything the handlers do
    goes through foreign code: the ODBC driver, the dataframe library, the
    web framework and a few builtins.  What the source does not fix about
    them is gathered in the record [Library], and the handlers are written
    over an arbitrary one.  Python text is represented by its UTF-8 bytes
    ([string]).

    Effects are threaded explicitly: a handler is a function from the
    [World] (the database behind the driver, the clock, the connection
    objects that are alive, and the trace of calls) to an outcome and a new
    world. *)

From Stdlib Require Import Ascii String ZArith NArith Strings.Byte DecimalString.
From stdpp Require Import gmap strings list.

Set Warnings "-register-all".


(** ** Python values that appear in results *)

(** A dataframe cell.  [CNaN] is [numpy.nan]; a finite float is kept as
    mantissa and binary exponent; [CBytes] is a [bytes] value, as a binary
    column gives. *)
Inductive Cell : Type :=
| CNone
| CNaN
| CBool (b : bool)
| CInt (z : Z)
| CFloat (m e : Z)
| CStr (s : string)
| CBytes (b : list byte).

Definition is_nan (c : Cell) : bool :=
  match c with CNaN => true | _ => false end.

Record DataFrame : Type := {
  columns : list string;
  rows : list (list Cell)
}.

(** What a handler hands back to the framework as a plain object. *)
Inductive PyObj : Type :=
| PCell (c : Cell)
| PList (items : list PyObj)
| PDict (entries : list (string * PyObj)).

(** The JSON document the framework renders from a returned object. *)
Inductive Json : Type :=
| JNull
| JBool (b : bool)
| JInt (z : Z)
| JFloat (m e : Z)
| JStr (s : string)
| JArr (items : list Json)
| JObj (members : list (string * Json)).

Inductive Try (A : Type) : Type :=
| Fine (a : A)
| Fails (msg : string).
Arguments Fine {A} a.
Arguments Fails {A} msg.

(** A result set as the database sends it: per column its name and ODBC
    type code, per row the raw values ([None] is SQL NULL). *)
Record ResultSet (R : Type) : Type := {
  description : list (string * Z);
  fetchall : list (list (option R))
}.
Arguments description {R} r.
Arguments fetchall {R} r.

(** A value as the driver hands it to its caller: Python [None] for NULL,
    the string an output converter returned, or the driver's own value for
    a raw value of the given type code. *)
Inductive Fetched (R : Type) : Type :=
| FNone
| FStr (s : string)
| FNative (sqltype : Z) (raw : R).
Arguments FNone {R}.
Arguments FStr {R} s.
Arguments FNative {R} sqltype raw.

(** ** The foreign libraries *)

Record Library : Type := {
  Database : Type;
  Raw : Type;
  (** builtin [str] on a value the driver hands to a converter *)
  str_raw : Raw -> string;
  (** builtin [str.lower] *)
  str_lower : string -> string;
  (** [pyodbc.connect]: [None] when the connection opens, [Some msg] when it
      raises an exception whose [str] is [msg] *)
  odbc_connect : string -> Database -> option string;
  (** running one statement; it may change the database either way *)
  odbc_execute : string -> Database -> Try (ResultSet Raw) * Database;
  (** [Connection.close()] on a connection that is closed already:
      [None] when the driver accepts it, [Some msg] when it raises *)
  reclose_error : option string;
  (** the dataframe [pd.read_sql] builds from the column names and the
      fetched rows; it chooses the type of a column from all its values *)
  read_frame : list string -> list (list (Fetched Raw)) -> DataFrame;
  (** [DataFrame.to_csv(index=.., sep=..)] *)
  to_csv : DataFrame -> bool -> string -> Try string;
  (** [ExcelWriter(engine=..)] with [to_excel(index=.., sheet_name=..)],
      written at the given time: the workbook records when it was made *)
  to_excel : nat -> string -> DataFrame -> bool -> string -> Try (list byte);
  (** [str] of the error [text.encode("latin-1")] raises *)
  latin1_error : string -> string
}.

(** ** Requests *)

Record DynamicRequest : Type := {
  SERVER : string;
  DATABASE : string;
  USERNAME : string;
  PASSWORD : string;
  QUERY : string;
  DELIMITER : string;
  FORMAT : string
}.

(** Field defaults of the request model: the three last fields may be left
    out of the body. *)
Definition mkDynamicRequest (server database username password : string)
    (query delimiter format : option string) : DynamicRequest :=
  {| SERVER := server; DATABASE := database;
     USERNAME := username; PASSWORD := password;
     QUERY := default "" query;
     DELIMITER := default "," delimiter;
     FORMAT := default "csv" format |}.

Definition with_DELIMITER (d : string) (req : DynamicRequest) : DynamicRequest :=
  {| SERVER := SERVER req; DATABASE := DATABASE req;
     USERNAME := USERNAME req; PASSWORD := PASSWORD req;
     QUERY := QUERY req; DELIMITER := d; FORMAT := FORMAT req |}.

(** ** Exceptions and responses *)

Inductive Exn : Type :=
| HTTPException (status_code : Z) (detail : string)
| PyError (msg : string).

Definition str_of_Z (z : Z) : string := NilZero.string_of_int (Z.to_int z).

(** [str(e)] *)
Definition str_exn (e : Exn) : string :=
  match e with
  | HTTPException s d => str_of_Z s +:+ ": " +:+ d
  | PyError msg => msg
  end.

Inductive Response : Type :=
| Returned (content : PyObj)
| StreamingResponse (content : list byte) (media_type : string)
    (headers : list (string * string)).

Inductive Outcome (A : Type) : Type :=
| Returns (a : A)
| Raises (e : Exn).
Arguments Returns {A} a.
Arguments Raises {A} e.

(** ** Text and bytes *)

Definition encode_utf8 (s : string) : list byte := list_byte_of_string s.

(** Well-formed UTF-8, on the byte values. *)
Definition utf8_tail (b : N) : bool := ((128 <=? b) && (b <=? 191))%N.

Fixpoint utf8_valid (bs : list N) : bool :=
  match bs with
  | [] => true
  | b0 :: r0 =>
      if (b0 <? 128)%N then utf8_valid r0
      else
        match r0 with
        | [] => false
        | b1 :: r1 =>
            if ((194 <=? b0) && (b0 <=? 223))%N then
              utf8_tail b1 && utf8_valid r1
            else
              match r1 with
              | [] => false
              | b2 :: r2 =>
                  if ((224 <=? b0) && (b0 <=? 239))%N then
                    (if (b0 =? 224)%N then ((160 <=? b1) && (b1 <=? 191))%N
                     else if (b0 =? 237)%N then ((128 <=? b1) && (b1 <=? 159))%N
                     else utf8_tail b1)
                    && utf8_tail b2 && utf8_valid r2
                  else
                    match r2 with
                    | [] => false
                    | b3 :: r3 =>
                        ((240 <=? b0) && (b0 <=? 244))%N
                        && (if (b0 =? 240)%N then ((144 <=? b1) && (b1 <=? 191))%N
                            else if (b0 =? 244)%N then ((128 <=? b1) && (b1 <=? 143))%N
                            else utf8_tail b1)
                        && utf8_tail b2 && utf8_tail b3 && utf8_valid r3
                    end
              end
        end
  end.

(** [bytes.decode()]: the text, when the bytes are UTF-8. *)
Definition decode_utf8 (b : list byte) : option string :=
  if utf8_valid (map Byte.to_N b) then Some (string_of_list_byte b) else None.

(** Can [text.encode("latin-1")] succeed?  Every character must lie below
    U+0100: in UTF-8, one byte below 128, or a lead byte 194 or 195 with one
    continuation byte. *)
Fixpoint latin1_encodable (s : string) : bool :=
  match s with
  | EmptyString => true
  | String c s' =>
      if (N_of_ascii c <? 128)%N then latin1_encodable s'
      else
        match s' with
        | EmptyString => false
        | String c' s'' =>
            ((N_of_ascii c =? 194) || (N_of_ascii c =? 195))%N
            && utf8_tail (N_of_ascii c')
            && latin1_encodable s''
        end
  end.

(** ** io.BytesIO *)

Record BytesIO : Type := {
  getvalue : list byte;
  tell : nat
}.

Definition BytesIO_new : BytesIO := {| getvalue := []; tell := 0 |}.

Definition BytesIO_write (data : list byte) (b : BytesIO) : BytesIO :=
  {| getvalue := take (tell b) (getvalue b) ++ data
                 ++ drop (tell b + length data) (getvalue b);
     tell := tell b + length data |}.

Definition BytesIO_seek (pos : nat) (b : BytesIO) : BytesIO :=
  {| getvalue := getvalue b; tell := pos |}.

(** Iterating a buffer yields what lies after the current position. *)
Definition BytesIO_read (b : BytesIO) : list byte := drop (tell b) (getvalue b).

(** ** The dataframe steps of execute_sql *)

(** [df.replace({np.nan: None})] *)
Definition replace_nan_cell (c : Cell) : Cell :=
  if is_nan c then CNone else c.

Definition replace_nan (df : DataFrame) : DataFrame :=
  {| columns := columns df; rows := map (map replace_nan_cell) (rows df) |}.

(** Assignment into a Python dict: an existing key keeps its place. *)
Fixpoint dict_set {V : Type} (k : string) (v : V) (d : list (string * V))
    : list (string * V) :=
  match d with
  | [] => [(k, v)]
  | (k', v') :: d' =>
      if String.eqb k k' then (k', v) :: d' else (k', v') :: dict_set k v d'
  end.


Definition dict_of_pairs {V : Type} (kvs : list (string * V)) : list (string * V) :=
  fold_left (fun d kv => dict_set (fst kv) (snd kv) d) kvs [].

(** [df.to_dict(orient="records")]: one dict per row, column name to cell. *)
Definition record_of_row (cols : list string) (row : list Cell) : PyObj :=
  PDict (dict_of_pairs (zip cols (map PCell row))).

Definition to_dict_records (df : DataFrame) : list PyObj :=
  map (record_of_row (columns df)) (rows df).

(** ** Rendering a returned object as JSON

    The framework refuses NaN, and turns [bytes] into text by decoding
    them, which fails on bytes that are not UTF-8. *)

Definition render_cell (c : Cell) : option Json :=
  match c with
  | CNone => Some JNull
  | CNaN => None
  | CBool b => Some (JBool b)
  | CInt z => Some (JInt z)
  | CFloat m e => Some (JFloat m e)
  | CStr s => Some (JStr s)
  | CBytes b => JStr <$> decode_utf8 b
  end.

Fixpoint render (o : PyObj) : option Json :=
  match o with
  | PCell c => render_cell c
  | PList items =>
      JArr <$> (fix go (l : list PyObj) : option (list Json) :=
                  match l with
                  | [] => Some []
                  | x :: l' =>
                      match render x, go l' with
                      | Some j, Some js => Some (j :: js)
                      | _, _ => None
                      end
                  end) items
  | PDict entries =>
      JObj <$> (fix go (l : list (string * PyObj)) : option (list (string * Json)) :=
                  match l with
                  | [] => Some []
                  | (k, x) :: l' =>
                      match render x, go l' with
                      | Some j, Some js => Some ((k, j) :: js)
                      | _, _ => None
                      end
                  end) entries
  end.





(** ** The world a handler runs in *)

Section Backend.

Context (L : Library).

(** An output converter takes the raw value of a column. *)
Definition Converter : Type := option (Raw L) -> string.

(** A driver connection object: whether it was closed, and the output
    converters registered on it, by ODBC type code. *)
Record Connection : Type := {
  closed : bool;
  output_converters : gmap Z Converter
}.

(** The calls a run makes, in order.  [EClose] stands for every call of
    [conn.close()], also one on a connection that is closed already;
    [EDisconnect] is the driver hanging up when a connection object that
    was never closed is destroyed. *)
Inductive Event : Type :=
| EConnect (conn_str : string) (opened : bool)
| EAddConverter (conn : nat) (sqltype : Z)
| EExecute (conn : nat) (query : string)
| EClose (conn : nat)
| EPrint (line : string)
| EDisconnect (conn : nat).

(** [connections] holds the connection objects that are alive; a handler
    names one by its index.  [clock] is the time, in seconds.  There is no
    other server-side store: the module has no mutable global. *)
Record World : Type := {
  database : Database L;
  clock : nat;
  connections : list Connection;
  trace : list Event
}.

Definition M (A : Type) : Type := World -> Outcome A * World.

Definition ret {A : Type} (a : A) : M A := fun w => (Returns a, w).

Definition raise {A : Type} (e : Exn) : M A := fun w => (Raises e, w).

Definition bind {A B : Type} (m : M A) (k : A -> M B) : M B :=
  fun w =>
    match m w with
    | (Returns a, w') => k a w'
    | (Raises e, w') => (Raises e, w')
    end.

(** [try: body  except Exception as e: handler e] *)
Definition try_except {A : Type} (body : M A) (handler : Exn -> M A) : M A :=
  fun w =>
    match body w with
    | (Returns a, w') => (Returns a, w')
    | (Raises e, w') => handler e w'
    end.

(** A pure library call that may raise. *)
Definition lift_try {A : Type} (t : Try A) : M A :=
  match t with
  | Fine a => ret a
  | Fails msg => raise (PyError msg)
  end.

(** The current time. *)
Definition now : M nat := fun w => (Returns (clock w), w).

Definition emit (ev : Event) (w : World) : World :=
  {| database := database w; clock := clock w;
     connections := connections w; trace := trace w ++ [ev] |}.

Definition set_connection (h : nat) (c : Connection) (w : World) : World :=
  {| database := database w; clock := clock w;
     connections := <[h := c]> (connections w); trace := trace w |}.

Definition set_database (d : Database L) (w : World) : World :=
  {| database := d; clock := clock w;
     connections := connections w; trace := trace w |}.

Definition closed_message : string := "Attempt to use a closed connection.".

(** *** The driver *)

(** [pyodbc.connect(conn_str)]: a fresh, open connection without converters. *)
Definition pyodbc_connect (conn_str : string) : M nat :=
  fun w =>
    match odbc_connect L conn_str (database w) with
    | Some msg => (Raises (PyError msg), emit (EConnect conn_str false) w)
    | None =>
        (Returns (length (connections w)),
         emit (EConnect conn_str true)
           {| database := database w; clock := clock w;
              connections := connections w
                             ++ [{| closed := false; output_converters := ∅ |}];
              trace := trace w |})
    end.

(** [conn.add_output_converter(sqltype, func)]: it only fills the table of
    the connection object, open or not. *)
Definition add_output_converter (h : nat) (sqltype : Z) (func : Converter)
    : M unit :=
  fun w =>
    match connections w !! h with
    | Some c =>
        (Returns tt,
         emit (EAddConverter h sqltype)
           (set_connection h
              {| closed := closed c;
                 output_converters := <[sqltype := func]> (output_converters c) |}
              w))
    | None => (Raises (PyError closed_message), w)
    end.

(** [conn.close()] *)
Definition conn_close (h : nat) : M unit :=
  fun w =>
    match connections w !! h with
    | Some c =>
        if closed c then
          (match reclose_error L with
           | Some msg => Raises (PyError msg)
           | None => Returns tt
           end, emit (EClose h) w)
        else (Returns tt,
              emit (EClose h)
                (set_connection h
                   {| closed := true; output_converters := output_converters c |}
                   w))
    | None => (Raises (PyError closed_message), w)
    end.

(** What the driver hands over for one value: [None] for NULL, without
    asking any converter; otherwise the result of the converter registered
    for the column's type code when there is one, its own value when not. *)
Definition fetch_cell (convs : gmap Z Converter) (sqltype : Z)
    (v : option (Raw L)) : Fetched (Raw L) :=
  match v with
  | None => FNone
  | Some x =>
      match convs !! sqltype with
      | Some func => FStr (func (Some x))
      | None => FNative sqltype x
      end
  end.

Definition fetch_row (convs : gmap Z Converter) (desc : list (string * Z))
    (r : list (option (Raw L))) : list (Fetched (Raw L)) :=
  zip_with (fun col v => fetch_cell convs (snd col) v) desc r.

(** The dataframe of a result set read through a connection. *)
Definition frame_of (convs : gmap Z Converter) (rs : ResultSet (Raw L))
    : DataFrame :=
  read_frame L (map fst (description rs))
    (map (fetch_row convs (description rs)) (fetchall rs)).

(** [pd.read_sql(query, conn)] *)
Definition read_sql (query : string) (h : nat) : M DataFrame :=
  fun w =>
    match connections w !! h with
    | Some c =>
        if closed c then (Raises (PyError closed_message), w)
        else
          match odbc_execute L query (database w) with
          | (Fine rs, d) =>
              (Returns (frame_of (output_converters c) rs),
               set_database d (emit (EExecute h query) w))
          | (Fails msg, d) =>
              (Raises (PyError msg),
               set_database d (emit (EExecute h query) w))
          end
    | None => (Raises (PyError closed_message), w)
    end.

Definition print (line : string) : M unit :=
  fun w => (Returns tt, emit (EPrint line) w).

(** A connection object defines neither [__bool__] nor [__len__]. *)
Definition truthy (h : nat) : bool := true.

(** *** The framework *)

(** The texts a response encodes as latin-1 when it is built: names and
    values of the headers, then the media type. *)
Definition header_texts (media_type : string) (headers : list (string * string))
    : list string :=
  flat_map (fun kv => [fst kv; snd kv]) headers ++ [media_type].

(** [StreamingResponse(content, media_type=.., headers=..)] *)
Definition new_StreamingResponse (content : list byte) (media_type : string)
    (headers : list (string * string)) : M Response :=
  match List.find (fun s => negb (latin1_encodable s))
          (header_texts media_type headers) with
  | Some s => raise (PyError (latin1_error L s))
  | None => ret (StreamingResponse content media_type headers)
  end.

Notation "x <- m ;; k" := (bind m (fun x => k))
  (at level 100, m at next level, right associativity).
Notation "m ;;; k" := (bind m (fun _ => k))
  (at level 100, right associativity).

(** *** The module's functions *)

(** helper to convert problematic sql types (geometry, xml) to strings *)
Definition handle_special_types (value : option (Raw L)) : string :=
  match value with
  | Some v => str_raw L v
  | None => ""
  end.

Definition get_conn_str (req : DynamicRequest) : string :=
  "DRIVER={ODBC Driver 17 for SQL Server};"
  +:+ "SERVER=" +:+ SERVER req +:+ ";"
  +:+ "DATABASE=" +:+ DATABASE req +:+ ";"
  +:+ "UID=" +:+ USERNAME req +:+ ";"
  +:+ "PWD=" +:+ PASSWORD req +:+ ";"
  +:+ "Connection Timeout=10;".

Definition get_db_connection (req : DynamicRequest) : M nat :=
  try_except
    (conn <- pyodbc_connect (get_conn_str req) ;;
     add_output_converter conn (-151) handle_special_types ;;;
     add_output_converter conn (-152) handle_special_types ;;;
     ret conn)
    (fun e => raise (HTTPException 400 ("Connection Error: " +:+ str_exn e))).

(** endpoint 1: test connection *)
Definition test_connection (req : DynamicRequest) : M Response :=
  conn <- get_db_connection req ;;
  conn_close conn ;;;
  ret (Returned (PDict [("status", PCell (CStr "success"));
                        ("message", PCell (CStr "connected"))])).

(** endpoint 2: execute for preview *)
Definition execute_sql (req : DynamicRequest) : M Response :=
  conn <- get_db_connection req ;;
  try_except
    (df <- read_sql (str_lower L (QUERY req)) conn ;;
     let clean_list := to_dict_records (replace_nan df) in
     ret (Returned (PDict [("data", PList clean_list)])))
    (fun e =>
       print ("Error: " +:+ str_exn e) ;;;
       raise (HTTPException 500 (str_exn e))).

Definition xlsx_media_type : string :=
  "application/vnd.openxmlformats-officedocument.spreadsheetml.sheet".

(** The two branches of the export: what is written to the buffer, the media
    type and the file extension. *)
Definition export (req : DynamicRequest) (df : DataFrame) (buffer : BytesIO)
    : M (BytesIO * string * string) :=
  if String.eqb (FORMAT req) "excel" then
    time <- now ;;
    book <- lift_try (to_excel L time "openpyxl" df false "SQL_Results") ;;
    ret (BytesIO_write book buffer, xlsx_media_type, "xlsx")
  else
    text_data <- lift_try (to_csv L df false (DELIMITER req)) ;;
    ret (BytesIO_write (encode_utf8 text_data) buffer,
         (if String.eqb (FORMAT req) "csv" then "text/csv" else "text/plain"),
         FORMAT req).

(** endpoint 3: download file *)
Definition download_file (req : DynamicRequest) : M Response :=
  conn <- get_db_connection req ;;
  try_except
    (df <- read_sql (QUERY req) conn ;;
     conn_close conn ;;;
     let buffer := BytesIO_new in
     out <- export req df buffer ;;
     let '(buffer, media_type, ext) := out in
     let buffer := BytesIO_seek 0 buffer in
     new_StreamingResponse (BytesIO_read buffer) media_type
       [("Content-Disposition",
         "attachment; filename=query_export." +:+ ext)])
    (fun e =>
       (if truthy conn then conn_close conn else ret tt) ;;;
       raise (HTTPException 400 ("Export Error: " +:+ str_exn e))).

(** *** Observations on a run *)

(** The events a run adds to the trace. *)
Definition new_events (w w' : World) : list Event :=
  drop (length (trace w)) (trace w').

Definition executed_queries (evs : list Event) : list string :=
  omap (fun ev => match ev with EExecute _ q => Some q | _ => None end) evs.

(** The connections a run created, as they are left when it ends. *)
Definition new_connections (w w' : World) : list Connection :=
  drop (length (connections w)) (connections w').

Definition all_closed (cs : list Connection) : bool := forallb closed cs.

(** The converter table of a connection that get_db_connection returns. *)
Definition special_converters : gmap Z Converter :=
  <[(-152)%Z := handle_special_types]>
    (<[(-151)%Z := handle_special_types]> ∅).

(** The world after a request that connected: its connection object is
    appended, open or closed, the database is [d], and the trace has the
    three events of get_db_connection followed by [evs]. *)
Definition session (req : DynamicRequest) (w : World) (is_closed : bool)
    (d : Database L) (evs : list Event) : World :=
  {| database := d;
     clock := clock w;
     connections := connections w
                    ++ [{| closed := is_closed;
                           output_converters := special_converters |}];
     trace := trace w
              ++ [EConnect (get_conn_str req) true;
                  EAddConverter (length (connections w)) (-151);
                  EAddConverter (length (connections w)) (-152)]
              ++ evs |}.

(** The export branch as a value: bytes, media type and extension. *)
Definition export_bytes (time : nat) (req : DynamicRequest) (df : DataFrame)
    : Try (list byte * string * string) :=
  if String.eqb (FORMAT req) "excel" then
    match to_excel L time "openpyxl" df false "SQL_Results" with
    | Fine book => Fine (book, xlsx_media_type, "xlsx")
    | Fails msg => Fails msg
    end
  else
    match to_csv L df false (DELIMITER req) with
    | Fine text_data =>
        Fine (encode_utf8 text_data,
              (if String.eqb (FORMAT req) "csv" then "text/csv" else "text/plain"),
              FORMAT req)
    | Fails msg => Fails msg
    end.

Definition content_disposition (ext : string) : list (string * string) :=
  [("Content-Disposition", "attachment; filename=query_export." +:+ ext)].

(** Export and response of /download as a value: the response, or the
    message of what was raised on the way. *)
Definition export_response (time : nat) (req : DynamicRequest) (df : DataFrame)
    : Try Response :=
  match export_bytes time req df with
  | Fine (data, media_type, ext) =>
      if latin1_encodable ext
      then Fine (StreamingResponse data media_type (content_disposition ext))
      else Fails (latin1_error L ("attachment; filename=query_export." +:+ ext))
  | Fails msg => Fails msg
  end.

(** What /download raises when export or response fail after its close. *)
Definition after_second_close (msg : string) : Outcome Response :=
  match reclose_error L with
  | Some again => Raises (PyError again)
  | None => Raises (HTTPException 400 ("Export Error: " +:+ msg))
  end.

Definition connected_body : PyObj :=
  PDict [("status", PCell (CStr "success"));
         ("message", PCell (CStr "connected"))].

(** *** The application: the three routes, and a run of several requests *)

Definition route (path : string) : option (DynamicRequest -> M Response) :=
  if String.eqb path "/test-connection" then Some test_connection
  else if String.eqb path "/execute-sql" then Some execute_sql
  else if String.eqb path "/download" then Some download_file
  else None.






End Backend.

Arguments closed {L} c.
Arguments output_converters {L} c.
Arguments database {L} w.
Arguments clock {L} w.
Arguments connections {L} w.
Arguments trace {L} w.

(** ** Further observations on requests and runs *)

Fixpoint has_semicolon (s : string) : bool :=
  match s with
  | EmptyString => false
  | String c s' => (Ascii.eqb c ";"%char || has_semicolon s')%bool
  end.

(** None of the four fields that go into the connection string holds the
    attribute separator. *)
Definition plain_credentials (req : DynamicRequest) : Prop :=
  has_semicolon (SERVER req) = false /\ has_semicolon (DATABASE req) = false
  /\ has_semicolon (USERNAME req) = false /\ has_semicolon (PASSWORD req) = false.

Definition same_credentials (r1 r2 : DynamicRequest) : Prop :=
  SERVER r1 = SERVER r2 /\ DATABASE r1 = DATABASE r2
  /\ USERNAME r1 = USERNAME r2 /\ PASSWORD r1 = PASSWORD r2.

(** The lines a run wrote to the terminal. *)
Definition printed_lines (evs : list Event) : list string :=
  omap (fun ev => match ev with EPrint line => Some line | _ => None end) evs.


(** ** A small concrete library, to run the handlers on

    The database is a counter of the statements executed so far.  The server
    [db1] accepts connections; four statements are known.  As in the real
    driver, closing a connection twice raises.  The dataframe reader turns
    a column of integers with a NULL into floats, as the real one does; the
    lowering is that of ASCII text, which is all the runs below use. *)
Module Demo.

Inductive value : Type :=
| RText (s : string)
| RInt (z : Z)
| RBytes (b : list byte).

(** [str] of a raw value; bytes print as a bytes literal. *)
Definition str_value (v : value) : string :=
  match v with
  | RText s => s
  | RInt z => str_of_Z z
  | RBytes b => "b'" +:+ string_of_list_byte b +:+ "'"
  end.

Definition lower_ascii (c : ascii) : ascii :=
  let n := nat_of_ascii c in
  if (Nat.leb 65 n && Nat.leb n 90)%bool then ascii_of_nat (n + 32) else c.

Fixpoint lower (s : string) : string :=
  match s with
  | EmptyString => EmptyString
  | String c s' => String (lower_ascii c) (lower s')
  end.

Definition is_null (v : Fetched value) : bool :=
  match v with FNone => true | _ => false end.

Definition is_int (v : Fetched value) : bool :=
  match v with FNative _ (RInt _) => true | _ => false end.

Definition column_values (j : nat) (rs : list (list (Fetched value)))
    : list (Fetched value) :=
  omap (fun r => r !! j) rs.

(** A column of integers with a NULL among them is read as floats. *)
Definition float_column (vals : list (Fetched value)) : bool :=
  forallb (fun v => is_null v || is_int v) vals
  && existsb is_int vals && existsb is_null vals.

Definition cell_of (as_float : bool) (v : Fetched value) : Cell :=
  match v with
  | FNone => if as_float then CNaN else CNone
  | FStr s => CStr s
  | FNative _ (RText s) => CStr s
  | FNative _ (RInt z) => if as_float then CFloat z 0 else CInt z
  | FNative _ (RBytes b) => CBytes b
  end.

Definition read_rows (cols : list string) (rs : list (list (Fetched value)))
    : DataFrame :=
  {| columns := cols;
     rows := map (fun r =>
                    imap (fun j v => cell_of (float_column (column_values j rs)) v) r)
               rs |}.

Definition render_csv_cell (c : Cell) : string :=
  match c with
  | CNone | CNaN => ""
  | CBool true => "True"
  | CBool false => "False"
  | CInt z => str_of_Z z
  | CFloat m e => str_of_Z m +:+ "p" +:+ str_of_Z e
  | CStr s => s
  | CBytes b => "b'" +:+ string_of_list_byte b +:+ "'"
  end.

Definition csv_line (sep : string) (fields : list string) : string :=
  String.concat sep fields +:+ String (ascii_of_nat 10) "".

Definition csv_text (df : DataFrame) (sep : string) : string :=
  csv_line sep (columns df)
  +:+ String.concat "" (map (fun r => csv_line sep (map render_csv_cell r)) (rows df)).

Definition shapes : ResultSet value :=
  {| description := [("g", (-151)%Z); ("x", (-152)%Z); ("n", 4%Z)];
     fetchall := [[None; None; None];
                  [Some (RBytes (list_byte_of_string "POINT (1 2)"));
                   Some (RBytes (list_byte_of_string "<a/>"));
                   Some (RInt 7)]] |}.

Definition one_cell (v : string) : ResultSet value :=
  {| description := [("c", 12%Z)]; fetchall := [[Some (RText v)]] |}.

(** One binary value, the single byte 255. *)
Definition files : ResultSet value :=
  {| description := [("blob", (-3)%Z)]; fetchall := [[Some (RBytes [xff])]] |}.

Definition run_statement (q : string) : Try (ResultSet value) :=
  if String.eqb q "SELECT 'A' AS c" then Fine (one_cell "A")
  else if String.eqb q "select 'a' as c" then Fine (one_cell "a")
  else if String.eqb q "select g, x, n from shapes" then Fine shapes
  else if String.eqb q "select blob from files" then Fine files
  else Fails "[42000] Incorrect syntax".

Definition lib : Library :=
  {| Database := nat;
     Raw := value;
     str_raw := str_value;
     str_lower := lower;
     odbc_connect := fun cs _ =>
       if String.prefix "DRIVER={ODBC Driver 17 for SQL Server};SERVER=db1;" cs
       then None else Some "[08001] Login timeout expired";
     odbc_execute := fun q n => (run_statement q, S n);
     reclose_error := Some "Attempt to use a closed connection.";
     read_frame := read_rows;
     to_csv := fun df index sep =>
       if Nat.eqb (String.length sep) 1 then Fine (csv_text df sep)
       else Fails "delimiter must be a 1-character string";
     to_excel := fun time engine df index sheet =>
       if String.eqb engine "openpyxl"
       then Fine (encode_utf8 ("PK" +:+ sheet +:+ "@"
                               +:+ str_of_Z (Z.of_nat time) +:+ csv_text df ";"))
       else Fails ("No module named " +:+ engine);
     latin1_error := fun s => "'latin-1' codec can't encode character" |}.

Definition w0 : World lib :=
  {| database := (0%nat : Database lib); clock := 0;
     connections := []; trace := [] |}.

Definition request (server query delimiter format : string) : DynamicRequest :=
  {| SERVER := server; DATABASE := "shop"; USERNAME := "sa"; PASSWORD := "pw";
     QUERY := query; DELIMITER := delimiter; FORMAT := format |}.

(** The euro sign, U+20AC, which latin-1 does not have. *)
Definition euro : string :=
  String (ascii_of_nat 226) (String (ascii_of_nat 130) (String (ascii_of_nat 172) "")).

End Demo.

Example demo_execute :
  fst (execute_sql Demo.lib (Demo.request "db1" "select g, x, n from shapes" "," "csv") Demo.w0)
  = Returns (Returned (PDict [("data", PList [
      PDict [("g", PCell CNone); ("x", PCell CNone); ("n", PCell CNone)];
      PDict [("g", PCell (CStr "b'POINT (1 2)'")); ("x", PCell (CStr "b'<a/>'"));
             ("n", PCell (CFloat 7 0))]])])).
Proof. vm_compute. reflexivity. Qed.

(** A body that leaves out QUERY, DELIMITER and FORMAT asks for the empty
    query, the comma and csv. *)
Example request_defaults :
  let req := mkDynamicRequest "db1" "shop" "sa" "pw" None None None in
  QUERY req = "" /\ DELIMITER req = "," /\ FORMAT req = "csv"
  /\ get_conn_str req
     = "DRIVER={ODBC Driver 17 for SQL Server};SERVER=db1;DATABASE=shop;UID=sa;PWD=pw;Connection Timeout=10;".
Proof. repeat split. Qed.

Example latin1_examples :
  latin1_encodable "attachment; filename=query_export.csv" = true
  /\ latin1_encodable Demo.euro = false
  /\ decode_utf8 [xff] = None
  /\ decode_utf8 (encode_utf8 Demo.euro) = Some Demo.euro.
Proof. vm_compute. repeat split. Qed.

(** ** How the handlers run *)

Section Runs.

Context (L : Library).

Implicit Types (req : DynamicRequest) (w : World L).

Lemma get_db_connection_fails req w msg :
  odbc_connect L (get_conn_str req) (database w) = Some msg ->
  get_db_connection L req w
  = (Raises (HTTPException 400 ("Connection Error: " +:+ msg)),
     emit L (EConnect (get_conn_str req) false) w).
Proof.
  intros Hc. unfold get_db_connection, try_except, bind, pyodbc_connect.
  rewrite Hc. reflexivity.
Qed.

Lemma get_db_connection_returns req w :
  odbc_connect L (get_conn_str req) (database w) = None ->
  get_db_connection L req w
  = (Returns (length (connections w)), session L req w false (database w) []).
Proof.
  intros Hc. unfold get_db_connection, try_except, bind, pyodbc_connect.
  rewrite Hc. unfold add_output_converter, emit, set_connection; cbn.
  rewrite list_lookup_middle by reflexivity. cbn.
  rewrite list_lookup_insert_eq by (rewrite length_app; cbn; lia). cbn.
  unfold ret, session, special_converters. f_equal. f_equal.
  - rewrite list_insert_insert_eq.
    rewrite insert_app_r_alt by lia. rewrite Nat.sub_diag. reflexivity.
  - rewrite <- !app_assoc. reflexivity.
Qed.

(** Operations on the connection of a [session]. *)
Lemma session_lookup req w b d evs :
  connections (session L req w b d evs) !! length (connections w)
  = Some {| closed := b; output_converters := special_converters L |}.
Proof. cbn. apply list_lookup_middle. reflexivity. Qed.

Lemma conn_close_session req w d evs :
  conn_close L (length (connections w)) (session L req w false d evs)
  = (Returns tt,
     session L req w true d (evs ++ [EClose (length (connections w))])).
Proof.
  unfold conn_close. rewrite session_lookup. cbn.
  unfold emit, set_connection, session. cbn. f_equal. f_equal.
  - rewrite insert_app_r_alt by lia. rewrite Nat.sub_diag. reflexivity.
  - rewrite <- !app_assoc. reflexivity.
Qed.

Lemma conn_close_again req w d evs :
  conn_close L (length (connections w)) (session L req w true d evs)
  = (match reclose_error L with
     | Some msg => Raises (PyError msg)
     | None => Returns tt
     end,
     session L req w true d (evs ++ [EClose (length (connections w))])).
Proof.
  unfold conn_close. rewrite session_lookup. cbn.
  unfold emit, session. cbn. rewrite <- !app_assoc. reflexivity.
Qed.

Lemma read_sql_session req w q d evs :
  read_sql L q (length (connections w)) (session L req w false d evs)
  = (match fst (odbc_execute L q d) with
     | Fine rs => Returns (frame_of L (special_converters L) rs)
     | Fails msg => Raises (PyError msg)
     end,
     session L req w false (snd (odbc_execute L q d))
       (evs ++ [EExecute (length (connections w)) q])).
Proof.
  unfold read_sql. rewrite session_lookup. cbn.
  destruct (odbc_execute L q d) as [[rs|msg] d']; cbn;
    unfold set_database, emit, session; cbn;
    rewrite <- !app_assoc; reflexivity.
Qed.

(** What the buffer streams after one write into a fresh buffer and a seek
    to the start. *)
Lemma BytesIO_round data :
  BytesIO_read (BytesIO_seek 0 (BytesIO_write data BytesIO_new)) = data.
Proof.
  unfold BytesIO_read, BytesIO_seek, BytesIO_write, BytesIO_new. cbn.
  rewrite drop_nil. apply app_nil_r.
Qed.

Lemma export_run req df w :
  export L req df BytesIO_new w
  = (match export_bytes L (clock w) req df with
     | Fine (data, media_type, ext) =>
         Returns (BytesIO_write data BytesIO_new, media_type, ext)
     | Fails msg => Raises (PyError msg)
     end, w).
Proof.
  unfold export, export_bytes, bind, lift_try, now.
  destruct (String.eqb (FORMAT req) "excel").
  - destruct (to_excel L _ _ _ _ _); reflexivity.
  - destruct (to_csv L _ _ _); reflexivity.
Qed.

(** The media types of the export are plain ASCII. *)
Lemma export_bytes_media time req df data media_type ext :
  export_bytes L time req df = Fine (data, media_type, ext) ->
  latin1_encodable media_type = true.
Proof.
  unfold export_bytes. destruct (String.eqb (FORMAT req) "excel").
  - destruct (to_excel L _ _ _ _ _); [|done]. by intros [= _ <- _].
  - destruct (to_csv L _ _ _); [|done].
    destruct (String.eqb (FORMAT req) "csv"); by intros [= _ <- _].
Qed.

(** The header of the attachment can be encoded when the extension can. *)
Lemma latin1_encodable_filename ext :
  latin1_encodable ("attachment; filename=query_export." +:+ ext)
  = latin1_encodable ext.
Proof. reflexivity. Qed.

Lemma new_StreamingResponse_run data media_type ext w :
  latin1_encodable media_type = true ->
  new_StreamingResponse L data media_type (content_disposition ext) w
  = (if latin1_encodable ext
     then Returns (StreamingResponse data media_type (content_disposition ext))
     else Raises (PyError (latin1_error L
                             ("attachment; filename=query_export." +:+ ext))),
     w).
Proof.
  intros Hm. unfold new_StreamingResponse, header_texts, content_disposition.
  cbn [flat_map fst snd app List.find].
  change (latin1_encodable "Content-Disposition") with true. cbn [negb].
  rewrite latin1_encodable_filename.
  destruct (latin1_encodable ext); cbn [negb]; [|reflexivity].
  rewrite Hm. reflexivity.
Qed.

Lemma test_connection_fails req w msg :
  odbc_connect L (get_conn_str req) (database w) = Some msg ->
  test_connection L req w
  = (Raises (HTTPException 400 ("Connection Error: " +:+ msg)),
     emit L (EConnect (get_conn_str req) false) w).
Proof.
  intros Hc. unfold test_connection, bind.
  rewrite (get_db_connection_fails _ _ _ Hc). reflexivity.
Qed.

Lemma test_connection_run req w :
  odbc_connect L (get_conn_str req) (database w) = None ->
  test_connection L req w
  = (Returns (Returned connected_body),
     session L req w true (database w) [EClose (length (connections w))]).
Proof.
  intros Hc. unfold test_connection, bind.
  rewrite (get_db_connection_returns _ _ Hc), conn_close_session.
  reflexivity.
Qed.

Lemma execute_sql_fails req w msg :
  odbc_connect L (get_conn_str req) (database w) = Some msg ->
  execute_sql L req w
  = (Raises (HTTPException 400 ("Connection Error: " +:+ msg)),
     emit L (EConnect (get_conn_str req) false) w).
Proof.
  intros Hc. unfold execute_sql, bind.
  rewrite (get_db_connection_fails _ _ _ Hc). reflexivity.
Qed.

Lemma execute_sql_run req w :
  odbc_connect L (get_conn_str req) (database w) = None ->
  execute_sql L req w
  = let h := length (connections w) in
    let q := str_lower L (QUERY req) in
    let r := odbc_execute L q (database w) in
    match fst r with
    | Fine rs =>
        (Returns (Returned (PDict [("data",
            PList (to_dict_records
                     (replace_nan (frame_of L (special_converters L) rs))))])),
         session L req w false (snd r) [EExecute h q])
    | Fails msg =>
        (Raises (HTTPException 500 msg),
         session L req w false (snd r)
           [EExecute h q; EPrint ("Error: " +:+ msg)])
    end.
Proof.
  intros Hc. unfold execute_sql, bind at 1.
  rewrite (get_db_connection_returns _ _ Hc).
  unfold try_except, bind. rewrite read_sql_session. cbn zeta.
  destruct (odbc_execute L _ _) as [[rs|msg] d']; cbn [fst snd]; [reflexivity|].
  unfold print, raise, emit, session. cbn. rewrite <- !app_assoc. reflexivity.
Qed.

Lemma download_file_fails req w msg :
  odbc_connect L (get_conn_str req) (database w) = Some msg ->
  download_file L req w
  = (Raises (HTTPException 400 ("Connection Error: " +:+ msg)),
     emit L (EConnect (get_conn_str req) false) w).
Proof.
  intros Hc. unfold download_file, bind.
  rewrite (get_db_connection_fails _ _ _ Hc). reflexivity.
Qed.

Lemma download_file_run req w :
  odbc_connect L (get_conn_str req) (database w) = None ->
  download_file L req w
  = let h := length (connections w) in
    let r := odbc_execute L (QUERY req) (database w) in
    match fst r with
    | Fine rs =>
        match export_response L (clock w) req
                (frame_of L (special_converters L) rs) with
        | Fine resp =>
            (Returns resp,
             session L req w true (snd r) [EExecute h (QUERY req); EClose h])
        | Fails msg =>
            (after_second_close L msg,
             session L req w true (snd r)
               [EExecute h (QUERY req); EClose h; EClose h])
        end
    | Fails msg =>
        (Raises (HTTPException 400 ("Export Error: " +:+ msg)),
         session L req w true (snd r) [EExecute h (QUERY req); EClose h])
    end.
Proof.
  intros Hc. unfold download_file, bind at 1.
  rewrite (get_db_connection_returns _ _ Hc).
  unfold try_except, bind, truthy. rewrite read_sql_session. cbn zeta.
  destruct (odbc_execute L _ _) as [[rs|msg] d']; cbn [fst snd].
  - rewrite conn_close_session, export_run. unfold export_response.
    change (clock (session L req w true d' _)) with (clock w).
    destruct (export_bytes L (clock w) req _) as [[[data media_type] ext]|msg] eqn:He.
    + rewrite BytesIO_round. fold (content_disposition ext).
      rewrite (new_StreamingResponse_run _ _ _ _ (export_bytes_media _ _ _ _ _ _ He)).
      destruct (latin1_encodable ext); [reflexivity|].
      rewrite conn_close_again. unfold after_second_close.
      destruct (reclose_error L); reflexivity.
    + rewrite conn_close_again. unfold after_second_close.
      destruct (reclose_error L); reflexivity.
  - rewrite conn_close_session. reflexivity.
Qed.

End Runs.

(** ** What a run adds to the world *)

Section Observations.

Context (L : Library).

Implicit Types (req : DynamicRequest) (w : World L).

Lemma new_events_session req w b d evs :
  new_events L w (session L req w b d evs)
  = [EConnect (get_conn_str req) true;
     EAddConverter (length (connections w)) (-151);
     EAddConverter (length (connections w)) (-152)] ++ evs.
Proof. unfold new_events, session. cbn [trace]. apply drop_app_length. Qed.

Lemma new_events_emit w ev : new_events L w (emit L ev w) = [ev].
Proof. unfold new_events, emit. cbn [trace]. apply drop_app_length. Qed.

Lemma new_connections_session req w b d evs :
  new_connections L w (session L req w b d evs)
  = [{| closed := b; output_converters := special_converters L |}].
Proof. unfold new_connections, session. cbn [connections]. apply drop_app_length. Qed.

Lemma new_connections_emit w ev : new_connections L w (emit L ev w) = [].
Proof. unfold new_connections, emit. cbn [connections]. apply drop_all. Qed.

(** The statement /execute-sql sends to the driver is the lowered QUERY. *)
Lemma execute_sql_sends req w :
  odbc_connect L (get_conn_str req) (database w) = None ->
  executed_queries (new_events L w (snd (execute_sql L req w)))
  = [str_lower L (QUERY req)].
Proof.
  intros Hc. rewrite (execute_sql_run L req w Hc). cbn zeta.
  destruct (fst (odbc_execute L _ _)); cbn [snd];
    rewrite new_events_session; reflexivity.
Qed.

(** The statement /download sends to the driver is QUERY itself. *)
Lemma download_file_sends req w :
  odbc_connect L (get_conn_str req) (database w) = None ->
  executed_queries (new_events L w (snd (download_file L req w)))
  = [QUERY req].
Proof.
  intros Hc. rewrite (download_file_run L req w Hc). cbn zeta.
  destruct (fst (odbc_execute L _ _)); [destruct (export_response L _ _ _)|];
    cbn [snd]; rewrite new_events_session; reflexivity.
Qed.

(** /test-connection and /download leave their connection closed ... *)
Lemma test_connection_closes req w :
  all_closed L (new_connections L w (snd (test_connection L req w))) = true.
Proof.
  destruct (odbc_connect L (get_conn_str req) (database w)) as [msg|] eqn:Hc.
  - rewrite (test_connection_fails L req w msg Hc). cbn [snd].
    rewrite new_connections_emit. reflexivity.
  - rewrite (test_connection_run L req w Hc). cbn [snd].
    rewrite new_connections_session. reflexivity.
Qed.

Lemma download_file_closes req w :
  all_closed L (new_connections L w (snd (download_file L req w))) = true.
Proof.
  destruct (odbc_connect L (get_conn_str req) (database w)) as [msg|] eqn:Hc.
  - rewrite (download_file_fails L req w msg Hc). cbn [snd].
    rewrite new_connections_emit. reflexivity.
  - rewrite (download_file_run L req w Hc). cbn zeta.
    destruct (fst (odbc_execute L _ _)); [destruct (export_response L _ _ _)|];
      cbn [snd]; rewrite new_connections_session; reflexivity.
Qed.

(** ... while /execute-sql leaves it open, whether the query ran or raised. *)
Lemma execute_sql_leaves_open req w :
  odbc_connect L (get_conn_str req) (database w) = None ->
  new_connections L w (snd (execute_sql L req w))
  = [{| closed := false; output_converters := special_converters L |}].
Proof.
  intros Hc. rewrite (execute_sql_run L req w Hc). cbn zeta.
  destruct (fst (odbc_execute L _ _)); cbn [snd];
    apply new_connections_session.
Qed.

(** A failing statement: 500 with the driver's message from /execute-sql,
    400 with the prefixed message from /download. *)
Lemma execute_sql_query_error req w msg d :
  odbc_connect L (get_conn_str req) (database w) = None ->
  odbc_execute L (str_lower L (QUERY req)) (database w) = (Fails msg, d) ->
  fst (execute_sql L req w) = Raises (HTTPException 500 msg).
Proof.
  intros Hc Hq. rewrite (execute_sql_run L req w Hc). cbn zeta.
  rewrite Hq. reflexivity.
Qed.

Lemma download_file_query_error req w msg d :
  odbc_connect L (get_conn_str req) (database w) = None ->
  odbc_execute L (QUERY req) (database w) = (Fails msg, d) ->
  fst (download_file L req w)
  = Raises (HTTPException 400 ("Export Error: " +:+ msg)).
Proof.
  intros Hc Hq. rewrite (download_file_run L req w Hc). cbn zeta.
  rewrite Hq. reflexivity.
Qed.

(** A failing export comes after the connection was closed; the handler
    closes it a second time, and the driver decides what is raised. *)
Lemma download_file_export_error req w rs d msg :
  odbc_connect L (get_conn_str req) (database w) = None ->
  odbc_execute L (QUERY req) (database w) = (Fine rs, d) ->
  export_bytes L (clock w) req (frame_of L (special_converters L) rs)
  = Fails msg ->
  fst (download_file L req w)
  = match reclose_error L with
    | Some again => Raises (PyError again)
    | None => Raises (HTTPException 400 ("Export Error: " +:+ msg))
    end.
Proof.
  intros Hc Hq He. rewrite (download_file_run L req w Hc). cbn zeta.
  rewrite Hq. cbn [fst snd]. unfold export_response. rewrite He. reflexivity.
Qed.

End Observations.

(** ** Python dicts as association lists *)

Section Dicts.

Context {V : Type}.

Implicit Types (d kvs : list (string * V)).








End Dicts.

(** ** Records, NaN and JSON *)



Lemma replace_nan_cell_spec c :
  replace_nan_cell c = if is_nan c then CNone else c.
Proof. reflexivity. Qed.















(** ** The claims *)

(** C1.  The statement run against the database is not always the QUERY
    field: /download sends QUERY as it is, /execute-sql sends
    [QUERY.lower()].  For QUERY = [SELECT 'A' AS c] the preview runs
    [select 'a' as c] and shows the row [a], the download of the same
    request runs the text unchanged and exports the row [A]. *)
Theorem execute_sql_query_not_verbatim :
  let req := Demo.request "db1" "SELECT 'A' AS c" "," "csv" in
  executed_queries
    (new_events Demo.lib Demo.w0 (snd (execute_sql Demo.lib req Demo.w0)))
  = ["select 'a' as c"]
  /\ executed_queries
       (new_events Demo.lib Demo.w0 (snd (download_file Demo.lib req Demo.w0)))
     = [QUERY req]
  /\ fst (execute_sql Demo.lib req Demo.w0)
     = Returns (Returned (PDict [("data", PList [PDict [("c", PCell (CStr "a"))]])]))
  /\ fst (download_file Demo.lib req Demo.w0)
     = Returns (StreamingResponse
                  (encode_utf8 (Demo.csv_text
                     {| columns := ["c"]; rows := [[CStr "A"]] |} ","))
                  "text/csv"
                  [("Content-Disposition", "attachment; filename=query_export.csv")]).
Proof. vm_compute. repeat split. Qed.

(** C2.  The connection of a request is not closed by every operation:
    /test-connection and /download close it, /execute-sql returns, or raises
    its 500, with the connection still open. *)
Theorem execute_sql_connection_left_open :
  let good := Demo.request "db1" "select g, x, n from shapes" "," "csv" in
  let bad := Demo.request "db1" "select nothing" "," "csv" in
  new_connections Demo.lib Demo.w0 (snd (execute_sql Demo.lib good Demo.w0))
  = [{| closed := false; output_converters := special_converters Demo.lib |}]
  /\ new_connections Demo.lib Demo.w0 (snd (execute_sql Demo.lib bad Demo.w0))
     = [{| closed := false; output_converters := special_converters Demo.lib |}]
  /\ fst (execute_sql Demo.lib bad Demo.w0)
     = Raises (HTTPException 500 "[42000] Incorrect syntax")
  /\ all_closed Demo.lib
       (new_connections Demo.lib Demo.w0 (snd (test_connection Demo.lib good Demo.w0)))
     = true
  /\ all_closed Demo.lib
       (new_connections Demo.lib Demo.w0 (snd (download_file Demo.lib good Demo.w0)))
     = true.
Proof.
  cbv zeta. split; [|split; [|split; [|split]]].
  - apply execute_sql_leaves_open. reflexivity.
  - apply execute_sql_leaves_open. reflexivity.
  - vm_compute. reflexivity.
  - apply test_connection_closes.
  - apply download_file_closes.
Qed.

(** C8.  A failing statement is reported as the claim says (500 with the
    driver's message by /execute-sql, 400 [Export Error: ...] by /download),
    a failing export is not: /download has closed the connection by then,
    its handler closes it again, the driver raises on that, and this second
    exception leaves the handler in place of the 400. *)
Theorem download_export_error_not_reported :
  let bad_query := Demo.request "db1" "select nothing" "," "csv" in
  let bad_export := Demo.request "db1" "select g, x, n from shapes" "||" "csv" in
  fst (execute_sql Demo.lib bad_query Demo.w0)
  = Raises (HTTPException 500 "[42000] Incorrect syntax")
  /\ fst (download_file Demo.lib bad_query Demo.w0)
     = Raises (HTTPException 400 "Export Error: [42000] Incorrect syntax")
  /\ to_csv Demo.lib
       (frame_of Demo.lib (special_converters Demo.lib) Demo.shapes) false "||"
     = Fails "delimiter must be a 1-character string"
  /\ fst (download_file Demo.lib bad_export Demo.w0)
     = Raises (PyError "Attempt to use a closed connection.").
Proof. vm_compute. repeat split. Qed.

Section Claims.

Context (L : Library).

Implicit Types (req : DynamicRequest) (w : World L).

(** Every route is one of the three handlers. *)
Lemma route_cases path handler :
  route L path = Some handler ->
  handler = test_connection L \/ handler = execute_sql L
  \/ handler = download_file L.
Proof.
  unfold route. repeat case_match; intros [= <-]; auto.
Qed.

(** The first driver call of every handler is the connect, and nothing
    follows a connect that failed. *)
Lemma connect_comes_first path handler req w :
  route L path = Some handler ->
  exists opened rest,
    new_events L w (snd (handler req w))
    = EConnect (get_conn_str req) opened :: rest
    /\ (opened = false -> rest = []).
Proof.
  intros Hr.
  destruct (odbc_connect L (get_conn_str req) (database w)) as [msg|] eqn:Hc.
  - exists false, [].
    destruct (route_cases _ _ Hr) as [-> | [-> | ->]];
      [rewrite (test_connection_fails L req w msg Hc)
      |rewrite (execute_sql_fails L req w msg Hc)
      |rewrite (download_file_fails L req w msg Hc)];
      cbn [snd]; rewrite new_events_emit; auto.
  - destruct (route_cases _ _ Hr) as [-> | [-> | ->]].
    + rewrite (test_connection_run L req w Hc). cbn [snd].
      rewrite new_events_session. eexists true, _. split; [reflexivity|done].
    + rewrite (execute_sql_run L req w Hc). cbn zeta.
      destruct (fst (odbc_execute L _ _)); cbn [snd];
        rewrite new_events_session; eexists true, _; (split; [reflexivity|done]).
    + rewrite (download_file_run L req w Hc). cbn zeta.
      destruct (fst (odbc_execute L _ _)); [destruct (export_response L _ _ _)|];
        cbn [snd]; rewrite new_events_session; eexists true, _;
        (split; [reflexivity|done]).
Qed.

(** C5.  On each of the three routes, when opening the connection raises
    (with message [msg]) the handler raises HTTP 400 whose detail is
    [Connection Error: ] followed by [msg]; no statement is executed and the
    database is as before.  In every run the connect is the first driver
    call, and after a failed connect there is no further call. *)
Theorem connection_error_is_400 path handler req w msg :
  route L path = Some handler ->
  odbc_connect L (get_conn_str req) (database w) = Some msg ->
  fst (handler req w)
  = Raises (HTTPException 400 ("Connection Error: " +:+ msg))
  /\ String.prefix "Connection Error:" ("Connection Error: " +:+ msg) = true
  /\ executed_queries (new_events L w (snd (handler req w))) = []
  /\ new_events L w (snd (handler req w))
     = [EConnect (get_conn_str req) false]
  /\ database (snd (handler req w)) = database w
  /\ (forall req' w', exists opened rest,
        new_events L w' (snd (handler req' w'))
        = EConnect (get_conn_str req') opened :: rest
        /\ (opened = false -> rest = [])).
Proof.
  intros Hr Hc.
  assert (Hrun : handler req w
                 = (Raises (HTTPException 400 ("Connection Error: " +:+ msg)),
                    emit L (EConnect (get_conn_str req) false) w)).
  { destruct (route_cases _ _ Hr) as [-> | [-> | ->]];
      auto using test_connection_fails, execute_sql_fails, download_file_fails. }
  rewrite Hrun. cbn [fst snd]. rewrite new_events_emit.
  repeat split.
  intros req' w'. eapply connect_comes_first, Hr.
Qed.

(** The export of a text format and of a workbook, as responses. *)
Lemma export_response_text time req df :
  FORMAT req <> "excel" ->
  export_response L time req df
  = match to_csv L df false (DELIMITER req) with
    | Fine text_data =>
        if latin1_encodable (FORMAT req)
        then Fine (StreamingResponse (encode_utf8 text_data)
                     (if String.eqb (FORMAT req) "csv"
                      then "text/csv" else "text/plain")
                     (content_disposition (FORMAT req)))
        else Fails (latin1_error L
                      ("attachment; filename=query_export." +:+ FORMAT req))
    | Fails msg => Fails msg
    end.
Proof.
  intros Hf. unfold export_response, export_bytes.
  destruct (String.eqb_spec (FORMAT req) "excel"); [done|].
  by destruct (to_csv L df false (DELIMITER req)).
Qed.


Lemma after_second_close_raises msg resp :
  after_second_close L msg <> Returns resp.
Proof. unfold after_second_close. by destruct (reclose_error L). Qed.


(** C4.  On /download with a FORMAT other than [excel] that latin-1 can
    encode, once the connection opened and the statement ran: when [to_csv]
    accepts DELIMITER as separator, the body is what it gives for the result
    set with [index=False] and [sep=DELIMITER], encoded in UTF-8 (decoding
    the body gives that text back); when [to_csv] raises, nothing is
    exported. *)
Theorem download_text_uses_delimiter req w rs d :
  FORMAT req <> "excel" ->
  latin1_encodable (FORMAT req) = true ->
  odbc_connect L (get_conn_str req) (database w) = None ->
  odbc_execute L (QUERY req) (database w) = (Fine rs, d) ->
  let df := frame_of L (special_converters L) rs in
  match to_csv L df false (DELIMITER req) with
  | Fine text_data =>
      exists body media_type headers,
        fst (download_file L req w)
        = Returns (StreamingResponse body media_type headers)
        /\ body = encode_utf8 text_data
        /\ string_of_list_byte body = text_data
  | Fails _ => forall resp, fst (download_file L req w) <> Returns resp
  end.
Proof.
  intros Hf Hl Hc Hq df. rewrite (download_file_run L req w Hc). cbn zeta.
  rewrite Hq. cbn [fst]. rewrite (export_response_text _ _ _ Hf), Hl. fold df.
  destruct (to_csv L df false (DELIMITER req)) as [text_data|msg].
  - eexists _, _, _. split; [reflexivity|]. split; [reflexivity|].
    apply string_of_list_byte_of_string.
  - intros resp. cbn [fst]. apply after_second_close_raises.
Qed.


(** C10.  On /download, FORMAT [excel] ignores DELIMITER: changing it
    changes neither the outcome nor the world.  Any other FORMAT that
    latin-1 can encode is a delimited-text export: the body is the [to_csv]
    text, the media type is [text/csv] exactly when FORMAT is [csv] and
    [text/plain] otherwise, and the file name is [query_export.] followed by
    FORMAT as given.  A FORMAT that latin-1 cannot encode gives no
    response. *)
Theorem download_format_dispatch req w :
  (FORMAT req = "excel" ->
   forall delimiter,
     download_file L (with_DELIMITER delimiter req) w = download_file L req w)
  /\ (FORMAT req <> "excel" ->
      latin1_encodable (FORMAT req) = true ->
      odbc_connect L (get_conn_str req) (database w) = None ->
      forall rs d text_data,
        odbc_execute L (QUERY req) (database w) = (Fine rs, d) ->
        to_csv L (frame_of L (special_converters L) rs) false (DELIMITER req)
        = Fine text_data ->
        let media_type :=
          if String.eqb (FORMAT req) "csv" then "text/csv" else "text/plain" in
        fst (download_file L req w)
        = Returns (StreamingResponse (encode_utf8 text_data) media_type
                     [("Content-Disposition",
                       "attachment; filename=query_export." +:+ FORMAT req)])
        /\ (media_type = "text/csv" <-> FORMAT req = "csv")
        /\ (media_type = "text/plain" <-> FORMAT req <> "csv"))
  /\ (FORMAT req <> "excel" ->
      latin1_encodable (FORMAT req) = false ->
      forall resp, fst (download_file L req w) <> Returns resp).
Proof.
  split; [|split].
  - intros Hf delimiter. unfold download_file, export, with_DELIMITER.
    cbn [FORMAT QUERY]. rewrite Hf. reflexivity.
  - intros Hf Hl Hc rs d text_data Hq Ht media_type. split; [|split].
    + rewrite (download_file_run L req w Hc). cbn zeta.
      rewrite Hq. cbn [fst]. rewrite (export_response_text _ _ _ Hf), Ht, Hl.
      reflexivity.
    + unfold media_type. destruct (String.eqb_spec (FORMAT req) "csv"); split; done.
    + unfold media_type. destruct (String.eqb_spec (FORMAT req) "csv"); split; done.
  - intros Hf Hl resp.
    destruct (odbc_connect L (get_conn_str req) (database w)) as [msg|] eqn:Hc.
    + by rewrite (download_file_fails L req w msg Hc).
    + rewrite (download_file_run L req w Hc). cbn zeta.
      destruct (fst (odbc_execute L _ _)) as [rs|msg]; [|done].
      rewrite (export_response_text _ _ _ Hf), Hl.
      destruct (to_csv L _ _ _); cbn [fst]; apply after_second_close_raises.
Qed.

Lemma special_converters_lookup sqltype :
  sqltype = (-151)%Z \/ sqltype = (-152)%Z ->
  special_converters L !! sqltype = Some (handle_special_types L).
Proof.
  unfold special_converters. intros [-> | ->].
  - rewrite lookup_insert_ne by done. apply lookup_insert_eq.
  - apply lookup_insert_eq.
Qed.

Lemma special_converters_other sqltype :
  sqltype <> (-151)%Z -> sqltype <> (-152)%Z ->
  special_converters L !! sqltype = None.
Proof.
  intros H1 H2. unfold special_converters.
  rewrite !lookup_insert_ne by done. apply lookup_empty.
Qed.

(** A value of an xml or geometry column that is not NULL reaches the
    dataframe reader as its string form; a NULL reaches it as None. *)
Lemma fetch_cell_special sqltype (v : option (Raw L)) :
  sqltype = (-151)%Z \/ sqltype = (-152)%Z ->
  fetch_cell L (special_converters L) sqltype v
  = match v with
    | Some x => FStr (str_raw L x)
    | None => FNone
    end.
Proof.
  intros Hty. unfold fetch_cell. destruct v as [x|]; [|reflexivity].
  pose proof (special_converters_lookup sqltype Hty) as Hs.
  unfold Converter in *. by rewrite Hs.
Qed.






End Claims.

(** C9.  The converter for xml and geometry columns is meant to turn NULL
    into the empty string, and gives it when it is called on None; but the
    driver hands a NULL over as None without calling any converter, so a
    NULL in such a column reaches /execute-sql as None and is shown as null.
    Values that are not NULL are shown in their string form. *)
Theorem null_in_special_column_stays_null :
  let req := Demo.request "db1" "select g, x, n from shapes" "," "csv" in
  handle_special_types Demo.lib None = ""
  /\ fetch_row Demo.lib (special_converters Demo.lib)
       (description Demo.shapes) [None; None; None]
     = [FNone; FNone; FNone]
  /\ fst (execute_sql Demo.lib req Demo.w0)
     = Returns (Returned (PDict [("data", PList [
         PDict [("g", PCell CNone); ("x", PCell CNone); ("n", PCell CNone)];
         PDict [("g", PCell (CStr "b'POINT (1 2)'"));
                ("x", PCell (CStr "b'<a/>'"));
                ("n", PCell (CFloat 7 0))]])]))
  /\ render (PDict [("g", PCell CNone); ("x", PCell CNone); ("n", PCell CNone)])
     = Some (JObj [("g", JNull); ("x", JNull); ("n", JNull)]).
Proof. vm_compute. repeat split. Qed.

(** ** Where the claims fail as they were stated *)


(** A delimiter of two characters: the statement runs, nothing is exported. *)
Lemma download_long_delimiter_exports_nothing :
  let req := Demo.request "db1" "select g, x, n from shapes" "||" "txt" in
  executed_queries
    (new_events Demo.lib Demo.w0 (snd (download_file Demo.lib req Demo.w0)))
  = ["select g, x, n from shapes"]
  /\ forall body media_type headers,
       fst (download_file Demo.lib req Demo.w0)
       <> Returns (StreamingResponse body media_type headers).
Proof.
  split; [vm_compute; reflexivity|].
  intros body media_type headers. vm_compute. discriminate.
Qed.

(** A FORMAT outside latin-1: the text is made, and no response with it. *)
Lemma download_euro_format_gives_no_response :
  let req := Demo.request "db1" "select g, x, n from shapes" "," Demo.euro in
  FORMAT req <> "excel"
  /\ (exists text_data,
        to_csv Demo.lib
          (frame_of Demo.lib (special_converters Demo.lib) Demo.shapes)
          false (DELIMITER req) = Fine text_data)
  /\ forall resp, fst (download_file Demo.lib req Demo.w0) <> Returns resp.
Proof.
  split; [discriminate|]. split; [eexists; vm_compute; reflexivity|].
  intros resp. vm_compute. discriminate.
Qed.


(** ** The theorems at work on the concrete library *)


Lemma download_text_uses_delimiter_witness :
  let req := Demo.request "db1" "select g, x, n from shapes" ";" "txt" in
  exists body media_type headers,
    fst (download_file Demo.lib req Demo.w0)
    = Returns (StreamingResponse body media_type headers)
    /\ body = encode_utf8
                (Demo.csv_text
                   (frame_of Demo.lib (special_converters Demo.lib) Demo.shapes)
                   ";")
    /\ string_of_list_byte body
       = Demo.csv_text
           (frame_of Demo.lib (special_converters Demo.lib) Demo.shapes) ";".
Proof.
  intros req.
  assert (Hf : FORMAT req <> "excel") by discriminate.
  exact (download_text_uses_delimiter Demo.lib req Demo.w0 Demo.shapes 1%nat
           Hf eq_refl eq_refl eq_refl).
Defined.

Lemma connection_error_is_400_witness :
  let req := Demo.request "nowhere" "select g, x, n from shapes" "," "csv" in
  fst (execute_sql Demo.lib req Demo.w0)
  = Raises (HTTPException 400 "Connection Error: [08001] Login timeout expired")
  /\ executed_queries
       (new_events Demo.lib Demo.w0 (snd (execute_sql Demo.lib req Demo.w0)))
     = [].
Proof.
  intros req.
  destruct (connection_error_is_400 Demo.lib "/execute-sql"
              (execute_sql Demo.lib) req Demo.w0
              "[08001] Login timeout expired" eq_refl eq_refl)
    as (Hout & _ & Hnone & _).
  split; [exact Hout|exact Hnone].
Defined.


Lemma download_format_dispatch_witness :
  let book := Demo.request "db1" "select g, x, n from shapes" "," "excel" in
  let text := Demo.request "db1" "select g, x, n from shapes" ";" "txt" in
  let odd := Demo.request "db1" "select g, x, n from shapes" ";" Demo.euro in
  download_file Demo.lib (with_DELIMITER "||" book) Demo.w0
  = download_file Demo.lib book Demo.w0
  /\ fst (download_file Demo.lib text Demo.w0)
     = Returns (StreamingResponse
                  (encode_utf8
                     (Demo.csv_text
                        (frame_of Demo.lib (special_converters Demo.lib) Demo.shapes)
                        ";"))
                  "text/plain"
                  [("Content-Disposition", "attachment; filename=query_export.txt")])
  /\ forall resp, fst (download_file Demo.lib odd Demo.w0) <> Returns resp.
Proof.
  intros book text odd. split; [|split].
  - apply (proj1 (download_format_dispatch Demo.lib book Demo.w0) eq_refl).
  - assert (Hf : FORMAT text <> "excel") by discriminate.
    apply (proj1 (proj2 (download_format_dispatch Demo.lib text Demo.w0))
             Hf eq_refl eq_refl Demo.shapes 1%nat _ eq_refl eq_refl).
  - assert (Hf : FORMAT odd <> "excel") by discriminate.
    apply (proj2 (proj2 (download_format_dispatch Demo.lib odd Demo.w0))
             Hf eq_refl).
Defined.


(** ** Further properties of the module *)

(** *** The connection string *)

Lemma append_semicolon_inj s1 s2 r1 r2 :
  has_semicolon s1 = false -> has_semicolon s2 = false ->
  s1 +:+ String ";"%char r1 = s2 +:+ String ";"%char r2 ->
  s1 = s2 /\ r1 = r2.
Proof.
  revert s2. induction s1 as [|c s1 IH]; intros [|c' s2] H1 H2 Heq; cbn in *.
  - by injection Heq as ->.
  - injection Heq as <- _. by rewrite Ascii.eqb_refl in H2.
  - injection Heq as -> _. by rewrite Ascii.eqb_refl in H1.
  - injection Heq as -> Heq.
    apply orb_false_elim in H1 as [_ H1]. apply orb_false_elim in H2 as [_ H2].
    destruct (IH s2 H1 H2 Heq) as [-> ->]. done.
Qed.

Lemma get_conn_str_credentials r1 r2 :
  same_credentials r1 r2 -> get_conn_str r1 = get_conn_str r2.
Proof.
  intros (Hs & Hd & Hu & Hp). unfold get_conn_str.
  by rewrite Hs, Hd, Hu, Hp.
Qed.

(** X1.  For requests whose SERVER, DATABASE, USERNAME and PASSWORD hold no
    semicolon, two connection strings are equal exactly when these four
    fields are: the string carries the credentials and nothing of QUERY,
    DELIMITER or FORMAT. *)
Theorem get_conn_str_determines_credentials r1 r2 :
  plain_credentials r1 -> plain_credentials r2 ->
  (get_conn_str r1 = get_conn_str r2 <-> same_credentials r1 r2).
Proof.
  intros (Hs1 & Hd1 & Hu1 & Hp1) (Hs2 & Hd2 & Hu2 & Hp2).
  split; [|apply get_conn_str_credentials].
  unfold get_conn_str. cbn [String.append]. intros Heq.
  repeat (injection Heq as Heq).
  apply append_semicolon_inj in Heq as [Hs Heq]; [|done..].
  cbn [String.append] in Heq. repeat (injection Heq as Heq).
  apply append_semicolon_inj in Heq as [Hd Heq]; [|done..].
  cbn [String.append] in Heq. repeat (injection Heq as Heq).
  apply append_semicolon_inj in Heq as [Hu Heq]; [|done..].
  cbn [String.append] in Heq. repeat (injection Heq as Heq).
  apply append_semicolon_inj in Heq as [Hp _]; [|done..].
  done.
Qed.

(** Without that condition a field can pass for two: the string is built
    without quoting. *)
Example get_conn_str_not_injective :
  let r1 := Demo.request "a;DATABASE=b" "select 1" "," "csv" in
  let r2 := {| SERVER := "a"; DATABASE := "b;DATABASE=shop"; USERNAME := "sa";
               PASSWORD := "pw"; QUERY := "select 1"; DELIMITER := ",";
               FORMAT := "csv" |} in
  get_conn_str r1 = get_conn_str r2 /\ SERVER r1 <> SERVER r2.
Proof. split; [reflexivity|discriminate]. Qed.

Section More.

Context (L : Library).

Implicit Types (req : DynamicRequest) (w : World L).

Lemma get_db_connection_credentials r1 r2 :
  same_credentials r1 r2 -> get_db_connection L r1 = get_db_connection L r2.
Proof.
  intros Hsame. unfold get_db_connection.
  by rewrite (get_conn_str_credentials r1 r2 Hsame).
Qed.

(** X2.  /test-connection answers with the success body exactly when the
    connection opens; it runs no statement and prints nothing, and its run is
    the same for any request with the same four credential fields. *)
Theorem test_connection_probes_only req w :
  (fst (test_connection L req w) = Returns (Returned connected_body)
   <-> odbc_connect L (get_conn_str req) (database w) = None)
  /\ executed_queries (new_events L w (snd (test_connection L req w))) = []
  /\ printed_lines (new_events L w (snd (test_connection L req w))) = []
  /\ (forall req', same_credentials req req' ->
        test_connection L req' w = test_connection L req w).
Proof.
  split; [|split; [|split]].
  - destruct (odbc_connect L (get_conn_str req) (database w)) as [msg|] eqn:Hc.
    + rewrite (test_connection_fails L req w msg Hc). done.
    + rewrite (test_connection_run L req w Hc). done.
  - destruct (odbc_connect L (get_conn_str req) (database w)) as [msg|] eqn:Hc.
    + rewrite (test_connection_fails L req w msg Hc). cbn [snd].
      by rewrite new_events_emit.
    + rewrite (test_connection_run L req w Hc). cbn [snd].
      by rewrite new_events_session.
  - destruct (odbc_connect L (get_conn_str req) (database w)) as [msg|] eqn:Hc.
    + rewrite (test_connection_fails L req w msg Hc). cbn [snd].
      by rewrite new_events_emit.
    + rewrite (test_connection_run L req w Hc). cbn [snd].
      by rewrite new_events_session.
  - intros req' Hsame. unfold test_connection.
    by rewrite (get_db_connection_credentials req req' Hsame).
Qed.

(** X3.  When the connection opens, the calls come in a fixed order:
    connect, the converter for -151, the converter for -152, then on
    /test-connection the close; on /execute-sql the lowered statement and no
    close (only printed lines may follow); on /download the statement and
    the close, and a second close exactly when the statement ran and no
    response is returned. *)
Theorem driver_calls_in_order req w :
  odbc_connect L (get_conn_str req) (database w) = None ->
  let h := length (connections w) in
  let opening :=
    [EConnect (get_conn_str req) true;
     EAddConverter h (-151); EAddConverter h (-152)] in
  new_events L w (snd (test_connection L req w)) = opening ++ [EClose h]
  /\ (exists tail,
        new_events L w (snd (execute_sql L req w))
        = opening ++ EExecute h (str_lower L (QUERY req)) :: tail
        /\ Forall (fun ev => exists line, ev = EPrint line) tail)
  /\ (exists again,
        new_events L w (snd (download_file L req w))
        = opening ++ EExecute h (QUERY req) :: EClose h :: again
        /\ (again = [] \/ again = [EClose h])
        /\ (again = [EClose h]
            <-> (exists rs,
                   fst (odbc_execute L (QUERY req) (database w)) = Fine rs)
                /\ forall resp, fst (download_file L req w) <> Returns resp)).
Proof.
  intros Hc h opening. split; [|split].
  - rewrite (test_connection_run L req w Hc). cbn [snd].
    by rewrite new_events_session.
  - rewrite (execute_sql_run L req w Hc). cbn zeta.
    destruct (fst (odbc_execute L _ _)) as [rs|msg]; cbn [snd];
      rewrite new_events_session; eexists; (split; [reflexivity|]).
    + constructor.
    + repeat constructor. by eexists.
  - rewrite (download_file_run L req w Hc). cbn zeta.
    destruct (fst (odbc_execute L _ _)) as [rs|msg];
      [destruct (export_response L _ _ _) as [resp|msg]|];
      cbn [fst snd]; rewrite new_events_session; eexists;
      (split; [reflexivity|]).
    + split; [by left|]. split; [done|]. intros [_ Hno]. by destruct (Hno resp).
    + split; [by right|]. split; [|done]. intros _. split; [by eexists|].
      intros resp. apply after_second_close_raises.
    + split; [by left|]. split; [done|]. by intros [[rs Hrs] _].
Qed.

(** X4.  For a QUERY that lowering leaves unchanged, preview and download
    agree: both run the same statement, and the preview shows the records
    of the dataframe that the download, when it returns, has exported. *)
Theorem preview_matches_download req w rs d :
  str_lower L (QUERY req) = QUERY req ->
  odbc_connect L (get_conn_str req) (database w) = None ->
  odbc_execute L (QUERY req) (database w) = (Fine rs, d) ->
  let df := frame_of L (special_converters L) rs in
  fst (execute_sql L req w)
  = Returns (Returned (PDict [("data", PList (to_dict_records (replace_nan df)))]))
  /\ executed_queries (new_events L w (snd (execute_sql L req w)))
     = executed_queries (new_events L w (snd (download_file L req w)))
  /\ (forall resp,
        fst (download_file L req w) = Returns resp ->
        export_response L (clock w) req df = Fine resp).
Proof.
  intros Hlow Hc Hq df. split; [|split].
  - rewrite (execute_sql_run L req w Hc). cbn zeta. rewrite Hlow, Hq. done.
  - rewrite (execute_sql_sends L req w Hc), (download_file_sends L req w Hc).
    by rewrite Hlow.
  - intros resp. rewrite (download_file_run L req w Hc). cbn zeta.
    rewrite Hq. cbn [fst]. fold df.
    destruct (export_response L (clock w) req df) as [resp'|msg]; cbn [fst].
    + by intros [= <-].
    + intros Hr. by destruct (after_second_close_raises L msg resp).
Qed.

(** X7.  /execute-sql prints one line, [Error: ] followed by the detail of
    its response, exactly when it answers 500, and nothing otherwise;
    /download never prints. *)
Theorem only_failed_previews_print req w :
  printed_lines (new_events L w (snd (execute_sql L req w)))
  = match fst (execute_sql L req w) with
    | Raises (HTTPException status detail) =>
        if Z.eqb status 500 then ["Error: " +:+ detail] else []
    | _ => []
    end
  /\ printed_lines (new_events L w (snd (download_file L req w))) = [].
Proof.
  destruct (odbc_connect L (get_conn_str req) (database w)) as [msg|] eqn:Hc.
  - rewrite (execute_sql_fails L req w msg Hc), (download_file_fails L req w msg Hc).
    cbn [fst snd]. by rewrite !new_events_emit.
  - rewrite (execute_sql_run L req w Hc), (download_file_run L req w Hc).
    cbn zeta. split.
    + destruct (fst (odbc_execute L (str_lower L (QUERY req)) _)) as [rs|msg];
        cbn [fst snd]; by rewrite new_events_session.
    + destruct (fst (odbc_execute L (QUERY req) _));
        [destruct (export_response L _ _ _)|];
        cbn [snd]; by rewrite new_events_session.
Qed.

(** X8.  What a handler can raise: HTTP 400 on any route, HTTP 500 on
    /execute-sql only, and an exception that is no HTTPException on
    /download only, namely the one the driver raises for closing a closed
    connection. *)
Theorem errors_a_client_can_get path handler req w :
  route L path = Some handler ->
  match fst (handler req w) with
  | Returns _ => True
  | Raises (HTTPException status detail) =>
      status = 400%Z \/ (status = 500%Z /\ path = "/execute-sql")
  | Raises (PyError msg) =>
      path = "/download" /\ reclose_error L = Some msg
  end.
Proof.
  intros Hr.
  assert (Hpath : (handler = test_connection L /\ path = "/test-connection")
                  \/ (handler = execute_sql L /\ path = "/execute-sql")
                  \/ (handler = download_file L /\ path = "/download")).
  { revert Hr. unfold route.
    destruct (String.eqb_spec path "/test-connection"); [intros [= <-]; auto|].
    destruct (String.eqb_spec path "/execute-sql"); [intros [= <-]; auto|].
    destruct (String.eqb_spec path "/download"); [intros [= <-]; auto|done]. }
  destruct (odbc_connect L (get_conn_str req) (database w)) as [msg|] eqn:Hc.
  - destruct Hpath as [[-> _] | [[-> _] | [-> _]]];
      [rewrite (test_connection_fails L req w msg Hc)
      |rewrite (execute_sql_fails L req w msg Hc)
      |rewrite (download_file_fails L req w msg Hc)]; cbn; auto.
  - destruct Hpath as [[-> _] | [[-> ->] | [-> ->]]].
    + by rewrite (test_connection_run L req w Hc).
    + rewrite (execute_sql_run L req w Hc). cbn zeta.
      destruct (fst (odbc_execute L _ _)); cbn; auto.
    + rewrite (download_file_run L req w Hc). cbn zeta.
      destruct (fst (odbc_execute L _ _)) as [rs|msg]; [|cbn; auto].
      destruct (export_response L _ _ _) as [resp|msg]; [done|].
      cbn [fst]. unfold after_second_close.
      destruct (reclose_error L); cbn; auto.
Qed.

(** X11.  get_db_connection either returns a new connection object, open
    and carrying converters for exactly the type codes -151 and -152, or
    raises HTTP 400 for the message of the failed connect and creates no
    connection object; in neither case does it run a statement. *)
Theorem get_db_connection_all_or_nothing req w :
  match get_db_connection L req w with
  | (Returns conn, w') =>
      conn = length (connections w)
      /\ connections w'
         = connections w
           ++ [{| closed := false; output_converters := special_converters L |}]
      /\ dom (special_converters L) = ({[ (-151)%Z; (-152)%Z ]} : gset Z)
  | (Raises e, w') =>
      (exists msg,
         odbc_connect L (get_conn_str req) (database w) = Some msg
         /\ e = HTTPException 400 ("Connection Error: " +:+ msg))
      /\ connections w' = connections w
  end
  /\ executed_queries
       (new_events L w (snd (get_db_connection L req w))) = [].
Proof.
  destruct (odbc_connect L (get_conn_str req) (database w)) as [msg|] eqn:Hc.
  - rewrite (get_db_connection_fails L req w msg Hc). cbn [snd].
    rewrite new_events_emit. split; [|done]. split; [by exists msg|done].
  - rewrite (get_db_connection_returns L req w Hc). cbn [snd].
    rewrite new_events_session. split; [|done].
    split; [done|split; [done|]].
    unfold special_converters. rewrite !dom_insert_L, dom_empty_L. set_solver.
Qed.

End More.

(** *** On the concrete library *)

Lemma get_conn_str_determines_credentials_witness :
  let r1 := Demo.request "db1" "select 1" "," "csv" in
  let r2 := Demo.request "db1" "select g, x, n from shapes" ";" "excel" in
  get_conn_str r1 = get_conn_str r2 <-> same_credentials r1 r2.
Proof.
  intros r1 r2.
  apply (get_conn_str_determines_credentials r1 r2); repeat split.
Defined.

Lemma driver_calls_in_order_witness :
  let req := Demo.request "db1" "select nothing" "," "csv" in
  new_events Demo.lib Demo.w0 (snd (test_connection Demo.lib req Demo.w0))
  = [EConnect (get_conn_str req) true;
     EAddConverter 0 (-151); EAddConverter 0 (-152); EClose 0].
Proof.
  intros req.
  exact (proj1 (driver_calls_in_order Demo.lib req Demo.w0 eq_refl)).
Defined.

Lemma preview_matches_download_witness :
  let req := Demo.request "db1" "select g, x, n from shapes" ";" "txt" in
  executed_queries
    (new_events Demo.lib Demo.w0 (snd (execute_sql Demo.lib req Demo.w0)))
  = executed_queries
      (new_events Demo.lib Demo.w0 (snd (download_file Demo.lib req Demo.w0))).
Proof.
  intros req.
  exact (proj1 (proj2 (preview_matches_download Demo.lib req Demo.w0
                         Demo.shapes 1%nat eq_refl eq_refl eq_refl))).
Defined.

Lemma errors_a_client_can_get_witness :
  "/download" = "/download"
  /\ reclose_error Demo.lib = Some "Attempt to use a closed connection.".
Proof.
  exact (errors_a_client_can_get Demo.lib "/download" (download_file Demo.lib)
           (Demo.request "db1" "select g, x, n from shapes" "||" "csv")
           Demo.w0 eq_refl).
Defined.
